(** * safer-typescript-examples: the typed [request] helper of example-05

    A shallow embedding of [src/example-05.tsx] and of the part of the
    JavaScript platform it touches ([fetch], [Response.json],
    [JSON.stringify], truthiness of a value, template literals), followed by
    the properties of [request] that the specification states; then the
    functions of [src/example-04.tsx] and the default export of example-05,
    with what they do on failures, on responses of another shape and in
    sequence. *)

From Stdlib Require Import String Ascii List ZArith Bool DecimalString.
From Stdlib Require Import DecimalPos DecimalZ.
Import ListNotations.
Local Open Scope list_scope.
Local Open Scope string_scope.

(** ** JavaScript values *)

Module JS.

(** The values a request body or a decoded response can be: the JSON data
    model plus [undefined].  A number is an integer-valued double in the safe
    range, held as a [Z]; an object is its own enumerable string-keyed
    properties in insertion order. *)
Unset Elimination Schemes.
Inductive value : Type :=
| VUndefined
| VNull
| VBool (b : bool)
| VNum (n : Z)
| VStr (s : string)
| VArr (elems : list value)
| VObj (props : list (string * value)).
Set Elimination Schemes.

(** What a promise settles to; [Pending] is a promise that never settles.
    An exception thrown inside an [async] function is the rejection of the
    promise the function returns, so [Rejected] covers both. *)
Inductive exn : Type :=
| TypeError (msg : string)
| SyntaxError (msg : string)
| Thrown (v : value).

Inductive Promise (A : Type) : Type :=
| Fulfilled (a : A)
| Rejected (e : exn)
| Pending.

Arguments Fulfilled {A} a.
Arguments Rejected {A} e.
Arguments Pending {A}.

(** [ToBoolean]: the test made by [c ? x : y] on its condition. *)
Definition truthy (v : value) : bool :=
  match v with
  | VUndefined | VNull => false
  | VBool b => b
  | VNum n => negb (n =? 0)%Z
  | VStr s => negb (s =? "")
  | VArr _ | VObj _ => true
  end.

(** [Number::toString] on an integer-valued number: its decimal digits.
    This is what the platform prints for the integers that a double holds
    exactly, [isSafeInteger] below; a larger number is printed with an
    exponent from [10^21] on, and is outside this model. *)
Definition Number_toString (n : Z) : string :=
  NilZero.string_of_int (Z.to_int n).

(** [Number.isSafeInteger]: the integers from [-(2^53 - 1)] to [2^53 - 1]. *)
Definition isSafeInteger (n : Z) : bool :=
  (- 9007199254740991 <=? n)%Z && (n <=? 9007199254740991)%Z.

(** Property lookup [v.k] on own properties; where a key is bound twice the
    last binding wins, as in an object literal. *)
Fixpoint lookup (k : string) (props : list (string * value)) : option value :=
  match props with
  | [] => None
  | (k', v) :: rest =>
      match lookup k rest with
      | Some w => Some w
      | None => if k' =? k then Some v else None
      end
  end.

Definition get_property (v : value) (k : string) : option value :=
  match v with
  | VObj props => lookup k props
  | _ => None
  end.

End JS.

(** ** JSON.stringify *)

Module JSON.
Import JS.

Definition hex_digit (n : N) : ascii :=
  match n with
  | 0 => "0" | 1 => "1" | 2 => "2" | 3 => "3" | 4 => "4" | 5 => "5"
  | 6 => "6" | 7 => "7" | 8 => "8" | 9 => "9" | 10 => "a" | 11 => "b"
  | 12 => "c" | 13 => "d" | 14 => "e" | _ => "f"
  end%N%char.

Definition dquote : string := String "034" EmptyString.

(** The escape of one code unit in [QuoteJSONString]. *)
Definition escape_char (c : ascii) : string :=
  let n := N_of_ascii c in
  if (n =? 8)%N then "\b"
  else if (n =? 9)%N then "\t"
  else if (n =? 10)%N then "\n"
  else if (n =? 12)%N then "\f"
  else if (n =? 13)%N then "\r"
  else if (n =? 34)%N then String "\" dquote
  else if (n =? 92)%N then "\\"
  else if (n <? 32)%N then
    "\u00" ++ String (hex_digit (n / 16)) (String (hex_digit (n mod 16)) EmptyString)
  else String c EmptyString.

Fixpoint escape (s : string) : string :=
  match s with
  | EmptyString => EmptyString
  | String c rest => escape_char c ++ escape rest
  end.

Definition QuoteJSONString (s : string) : string :=
  dquote ++ escape s ++ dquote.

(** [JSON.stringify(v)] with no replacer and no indentation.  [None] is the
    result [undefined]; a property whose value serializes to [undefined] is
    left out of an object, and such an element of an array is written
    [null]. *)
Fixpoint stringify (v : value) : option string :=
  match v with
  | VUndefined => None
  | VNull => Some "null"
  | VBool b => Some (if b then "true" else "false")
  | VNum n => Some (Number_toString n)
  | VStr s => Some (QuoteJSONString s)
  | VArr elems =>
      Some ("[" ++
            String.concat ","
              (map (fun x => match stringify x with
                             | Some t => t
                             | None => "null"
                             end) elems) ++
            "]")
  | VObj props =>
      Some ("{" ++
            String.concat ","
              (flat_map (fun kv => match stringify (snd kv) with
                                   | Some t => (QuoteJSONString (fst kv) ++ ":" ++ t) :: nil
                                   | None => nil
                                   end) props) ++
            "}")
  end.

End JSON.

(** ** The static types of example-05 *)

Module TS.
Import JS.

(** The fragment of TypeScript's types that the descriptors of [request]
    are built from.  [TObject []] is the type [{}]. *)
Unset Elimination Schemes.
Inductive ty : Type :=
| TUndefined
| TNull
| TBoolean
| TNumber
| TString
| TLiteral (s : string)
| TObject (fields : list (string * ty))
| TArray (elem : ty)
| TUnion (a b : ty).
Set Elimination Schemes.

Definition non_nullish (v : value) : bool :=
  match v with
  | VUndefined | VNull => false
  | _ => true
  end.

(** [has_type t v]: under [strict], a value [v] is assignable to [t].  An
    object type asks for a value that is neither [null] nor [undefined] and
    has every listed property at its type; so [{}] admits every such value,
    primitives included.  Properties that a primitive or an array inherits
    from its prototype are not modelled. *)
Fixpoint has_type (t : ty) (v : value) {struct t} : bool :=
  match t with
  | TUndefined => match v with VUndefined => true | _ => false end
  | TNull => match v with VNull => true | _ => false end
  | TBoolean => match v with VBool _ => true | _ => false end
  | TNumber => match v with VNum _ => true | _ => false end
  | TString => match v with VStr _ => true | _ => false end
  | TLiteral s => match v with VStr s' => s =? s' | _ => false end
  | TObject fields =>
      non_nullish v &&
      forallb (fun f => match get_property v (fst f) with
                        | Some w => has_type (snd f) w
                        | None => false
                        end) fields
  | TArray elem =>
      match v with
      | VArr elems => forallb (has_type elem) elems
      | _ => false
      end
  | TUnion a b => has_type a v || has_type b v
  end.

(** [t extends {}]. *)
Fixpoint extends_empty (t : ty) : bool :=
  match t with
  | TUndefined | TNull => false
  | TUnion a b => extends_empty a && extends_empty b
  | _ => true
  end.

(** [t extends undefined | {}]. *)
Fixpoint extends_undefined_or_empty (t : ty) : bool :=
  match t with
  | TUndefined => true
  | TNull => false
  | TUnion a b => extends_undefined_or_empty a && extends_undefined_or_empty b
  | _ => true
  end.

(** The type argument of [request]:
    [D extends { BodyType: undefined | {}; ResponseType: {} }]. *)
Record Descriptor : Type := {
  BodyType : ty;
  ResponseType : ty
}.

Definition descriptor_ok (D : Descriptor) : bool :=
  extends_undefined_or_empty (BodyType D) && extends_empty (ResponseType D).

(** [type User = { name: string }]. *)
Definition User : ty := TObject [("name", TString)].

End TS.

(** ** The transport: [fetch] and the promises it returns *)

Module Fetch.
Import JS.

Inductive Method : Type := GET | POST.

(** The second argument of [fetch]; a [body] of [None] is [undefined]. *)
Record RequestInit : Type := {
  method : Method;
  body : option string
}.

(** One call of [fetch]: its two arguments. *)
Record Call : Type := {
  url : string;
  init : RequestInit
}.

(** What [fetch] resolves to.  [json] is the promise that the method
    [response.json()] returns on this response; [status] is the HTTP status
    code. *)
Record Response : Type := {
  status : Z;
  json : Promise value
}.

(** The transport behind [fetch]: the promise it returns for a call. *)
Definition Transport : Type := Call -> Promise Response.

(** An [async] computation: run against a transport and the calls made on
    it so far, it gives what its promise settles to and the calls made. *)
Definition Async (A : Type) : Type :=
  Transport -> list Call -> Promise A * list Call.

Definition ret {A : Type} (a : A) : Async A :=
  fun _ log => (Fulfilled a, log).

(** [await] of a computation followed by the rest of the function body: a
    rejection, or a promise that never settles, is the outcome of the whole. *)
Definition bind {A B : Type} (m : Async A) (k : A -> Async B) : Async B :=
  fun t log =>
    match m t log with
    | (Fulfilled a, log') => k a t log'
    | (Rejected e, log') => (Rejected e, log')
    | (Pending, log') => (Pending, log')
    end.

(** A promise already at hand, as a computation that makes no call. *)
Definition settle {A : Type} (p : Promise A) : Async A :=
  fun _ log => (p, log).

Definition fetch (url : string) (init : RequestInit) : Async Response :=
  fun t log =>
    let c := {| url := url; init := init |} in
    (t c, (log ++ [c])%list).

Definition run {A : Type} (m : Async A) (t : Transport) : Promise A * list Call :=
  m t [].

Definition result {A : Type} (m : Async A) (t : Transport) : Promise A :=
  fst (run m t).

Definition calls {A : Type} (m : Async A) (t : Transport) : list Call :=
  snd (run m t).

End Fetch.

Declare Scope async_scope.
Delimit Scope async_scope with async.
Notation "x <- m ;; k" := (Fetch.bind m (fun x => k))
  (at level 61, m at next level, right associativity) : async_scope.

(** ** example-05.tsx *)

Module Example05.
Import JS TS Fetch.
Local Open Scope async_scope.

(** [async function request<D extends ...>(method, endpoint, body?)].  The
    type argument [D] is erased at run time; an omitted [body] is
    [VUndefined]. *)
Definition request (D : Descriptor) (method : Method) (endpoint : string)
    (body : value) : Async value :=
  response <- fetch ("https://api.com/v1" ++ endpoint)
                {| method := method;
                   body := if truthy body then JSON.stringify body else None |} ;;
  settle (json response).

(** [getUser(userId)] *)
Definition getUser (userId : Z) : Async value :=
  request {| BodyType := TUndefined; ResponseType := User |}
    GET ("/users/" ++ Number_toString userId) VUndefined.

(** [createUser(user)] *)
Definition createUser (user : value) : Async value :=
  request {| BodyType := User; ResponseType := User |}
    POST "/users" user.

(** The check the compiler makes on the argument [body?: D["BodyType"]] of a
    call [request<D>(method, endpoint, body)] whose argument expression has
    the type of its value: [D] meets the constraint, and the argument is
    left out or has type [BodyType].  An argument of type [any] passes the
    compiler whatever its value; [request] itself makes no check. *)
Definition call_site_accepts (D : Descriptor) (body : value) : bool :=
  descriptor_ok D && has_type (TUnion (BodyType D) TUndefined) body.

End Example05.

(** ** Stubs and sample data *)

Module Stubs.
Import JS TS Fetch Example05.

(** The object [{ name: "Kumar" }] and its JSON text. *)
Definition kumar : value := VObj [("name", VStr "Kumar")].

Definition kumar_json : string :=
  "{" ++ JSON.dquote ++ "name" ++ JSON.dquote ++ ":" ++
  JSON.dquote ++ "Kumar" ++ JSON.dquote ++ "}".

(** A transport that answers every call with status [st] and a body that
    decodes to [v]. *)
Definition echo_stub (st : Z) (v : value) : Transport :=
  fun _ => Fulfilled {| status := st; json := Fulfilled v |}.

(** A transport whose every call fails. *)
Definition failing_stub (e : exn) : Transport :=
  fun _ => Rejected e.

(** A transport that answers with a body that does not decode. *)
Definition malformed_stub (e : exn) : Transport :=
  fun _ => Fulfilled {| status := 200; json := Rejected e |}.

(** [t] with the status of every response replaced by [st]. *)
Definition with_status (st : Z) (t : Transport) : Transport :=
  fun c =>
    match t c with
    | Fulfilled r => Fulfilled {| status := st; json := json r |}
    | Rejected e => Rejected e
    | Pending => Pending
    end.

(** A transport answers with a body that decodes to [v], whatever the
    call. *)
Definition echoes (t : Transport) (v : value) : Prop :=
  forall c, exists r, t c = Fulfilled r /\ json r = Fulfilled v.

(** No call in a list of calls carries a body. *)
Definition no_body (cs : list Call) : Prop :=
  Forall (fun c => body (init c) = None) cs.

Definition D_get_user : Descriptor :=
  {| BodyType := TUndefined; ResponseType := User |}.

Definition D_create_user : Descriptor :=
  {| BodyType := User; ResponseType := User |}.

Definition D_counter : Descriptor :=
  {| BodyType := TNumber; ResponseType := User |}.

Definition D_flag : Descriptor :=
  {| BodyType := TBoolean; ResponseType := User |}.

End Stubs.

(** ** [fetch] called with a URL alone *)

Module Fetch1.
Import JS Fetch.

(** The transport behind [fetch(url)]: the promise it returns for a URL. *)
Definition Transport : Type := string -> Promise Response.

(** An [async] computation over such a transport; the calls made are the
    URLs fetched. *)
Definition Async (A : Type) : Type :=
  Transport -> list string -> Promise A * list string.

Definition ret {A : Type} (a : A) : Async A :=
  fun _ log => (Fulfilled a, log).

Definition bind {A B : Type} (m : Async A) (k : A -> Async B) : Async B :=
  fun t log =>
    match m t log with
    | (Fulfilled a, log') => k a t log'
    | (Rejected e, log') => (Rejected e, log')
    | (Pending, log') => (Pending, log')
    end.

Definition settle {A : Type} (p : Promise A) : Async A :=
  fun _ log => (p, log).

Definition fetch (url : string) : Async Response :=
  fun t log => (t url, (log ++ [url])%list).

Definition run {A : Type} (m : Async A) (t : Transport)
    : Promise A * list string :=
  m t [].

Definition result {A : Type} (m : Async A) (t : Transport) : Promise A :=
  fst (run m t).

Definition calls {A : Type} (m : Async A) (t : Transport) : list string :=
  snd (run m t).

End Fetch1.

Declare Scope async1_scope.
Delimit Scope async1_scope with async1.
Notation "x <- m ;; k" := (Fetch1.bind m (fun x => k))
  (at level 61, m at next level, right associativity) : async1_scope.

(** ** example-04.tsx

    The functions of example-01, example-02 and example-03 have the same
    bodies; they differ in their type annotations, which are erased. *)

Module Example04.
Import JS TS Fetch Fetch1.
Local Open Scope async1_scope.

(** The member access [v.k], for a key [k] that no prototype defines, as
    [name] is: a [TypeError] on [null] and [undefined], the own property
    otherwise, [undefined] where there is none. *)
Definition member (v : value) (k : string) : Promise value :=
  match v with
  | VUndefined =>
      Rejected (TypeError ("Cannot read properties of undefined (reading '"
                           ++ k ++ "')"))
  | VNull =>
      Rejected (TypeError ("Cannot read properties of null (reading '"
                           ++ k ++ "')"))
  | _ =>
      Fulfilled (match get_property v k with
                 | Some w => w
                 | None => VUndefined
                 end)
  end.

(** [async function request<Data>(endpoint)] *)
Definition request (Data : ty) (endpoint : string) : Async value :=
  response <- fetch ("https://api.com/v1" ++ endpoint) ;;
  settle (json response).

(** [getUserName(userId)] *)
Definition getUserName (userId : Z) : Async value :=
  user <- request User ("/users/" ++ Number_toString userId) ;;
  settle (member user "name").

(** [type UserRole = { type: "admin" | "staff" }] *)
Definition UserRole : ty :=
  TObject [("type", TUnion (TLiteral "admin") (TLiteral "staff"))].

(** [getUserRoles(userId)] *)
Definition getUserRoles (userId : Z) : Async value :=
  request (TArray UserRole) ("/users/" ++ Number_toString userId ++ "/roles").

End Example04.

(** ** The default export of example-05.tsx *)

Module Console.
Import JS Fetch.

(** What a program has done: the calls made on the transport and the
    values written by [console.log], both in order. *)
Record World : Type := {
  fetched : list Call;
  logged : list value
}.

Definition Prog (A : Type) : Type :=
  Transport -> World -> Promise A * World.

Definition ret {A : Type} (a : A) : Prog A :=
  fun _ w => (Fulfilled a, w).

Definition bind {A B : Type} (m : Prog A) (k : A -> Prog B) : Prog B :=
  fun t w =>
    match m t w with
    | (Fulfilled a, w') => k a t w'
    | (Rejected e, w') => (Rejected e, w')
    | (Pending, w') => (Pending, w')
    end.

(** [await m] for an [async] function [m] of the transport alone. *)
Definition await {A : Type} (m : Async A) : Prog A :=
  fun t w =>
    let (p, cs) := m t (fetched w) in
    (p, {| fetched := cs; logged := logged w |}).

Definition console_log (v : value) : Prog unit :=
  fun _ w =>
    (Fulfilled tt, {| fetched := fetched w; logged := (logged w ++ [v])%list |}).

Definition run {A : Type} (m : Prog A) (t : Transport) : Promise A * World :=
  m t {| fetched := []; logged := [] |}.

End Console.

Declare Scope prog_scope.
Delimit Scope prog_scope with prog.
Notation "x <- m ;; k" := (Console.bind m (fun x => k))
  (at level 61, m at next level, right associativity) : prog_scope.
Notation "m ;;; k" := (Console.bind m (fun _ => k))
  (at level 61, right associativity) : prog_scope.

Module Example05Main.
Import JS Fetch Example05 Console.
Local Open Scope prog_scope.

(** [export default async (): Promise<void> => { ... }] *)
Definition default_export : Prog unit :=
  user <- await (getUser 1) ;;
  console_log user ;;;
  created <- await (createUser (VObj [("name", VStr "Kumar")])) ;;
  console_log created.

End Example05Main.

(** A transport of [fetch(url, init)] seen through [fetch(url)]: a call with
    a URL alone is the [GET] request of that URL with no body. *)
Definition url_only (t : Fetch.Transport) : Fetch1.Transport :=
  fun u =>
    t {| Fetch.url := u;
         Fetch.init := {| Fetch.method := Fetch.GET; Fetch.body := None |} |}.

(** Whether a character occurs in a string. *)
Fixpoint occurs (c : ascii) (s : string) : bool :=
  match s with
  | EmptyString => false
  | String a rest => Ascii.eqb a c || occurs c rest
  end.

Import JS TS Fetch Example05 Stubs.
Local Open Scope async_scope.

(** ** Strings: a prefix is taken off again *)

Lemma substring_all (s : string) : substring 0 (String.length s) s = s.
Proof.
  induction s as [| c s IH]; simpl.
  - reflexivity.
  - now rewrite IH.
Qed.

Lemma substring_append (p s : string) :
  substring (String.length p) (String.length s) (p ++ s) = s.
Proof.
  induction p as [| c p IH]; simpl.
  - apply substring_all.
  - exact IH.
Qed.

Lemma length_append (p s : string) :
  String.length (p ++ s) = String.length p + String.length s.
Proof.
  induction p as [| c p IH]; simpl; [reflexivity | now rewrite IH].
Qed.

Lemma append_inj_r (p s1 s2 : string) : p ++ s1 = p ++ s2 -> s1 = s2.
Proof.
  induction p as [| c p IH]; simpl; intros H.
  - exact H.
  - injection H as H. now apply IH.
Qed.

(** ** The monad of [async] computations *)

Section AsyncLaws.
Context {A B C : Type}.

Lemma bind_ret_l (a : A) (k : A -> Async B) (t : Transport) (log : list Call) :
  bind (ret a) k t log = k a t log.
Proof. reflexivity. Qed.

Lemma bind_ret_r (m : Async A) (t : Transport) (log : list Call) :
  bind m ret t log = m t log.
Proof.
  unfold bind, ret. destruct (m t log) as [[a | e |] log']; reflexivity.
Qed.

Lemma bind_assoc (m : Async A) (k : A -> Async B) (h : B -> Async C)
    (t : Transport) (log : list Call) :
  bind (bind m k) h t log = bind m (fun a => bind (k a) h) t log.
Proof.
  unfold bind. destruct (m t log) as [[a | e |] log']; reflexivity.
Qed.

End AsyncLaws.

(** ** Values, truthiness and types *)

Lemma stringify_defined (v : value) :
  v <> VUndefined -> JSON.stringify v <> None.
Proof. destruct v; simpl; congruence. Qed.

Lemma truthy_defined (v : value) : truthy v = true -> v <> VUndefined.
Proof. destruct v; simpl; congruence. Qed.

Lemma has_type_undefined (v : value) :
  has_type TUndefined v = true <-> v = VUndefined.
Proof. destruct v; simpl; split; congruence. Qed.

Lemma accepted_body_of_absent_type (D : Descriptor) (b : value) :
  BodyType D = TUndefined -> call_site_accepts D b = true -> b = VUndefined.
Proof.
  unfold call_site_accepts. intros HD H.
  apply andb_prop in H as [_ H]. rewrite HD in H. simpl in H.
  apply orb_prop in H as [H | H]; now apply has_type_undefined.
Qed.

(** ** What one call of [request] does *)

Section Request.
Variables (D : Descriptor) (method : Method) (endpoint : string).
Variables (body : value) (t : Transport).

(** [request] makes one call of [fetch], after the calls already made, and
    settles as the decoding of the response does. *)
Lemma request_steps (log : list Call) :
  request D method endpoint body t log =
  (match t {| url := "https://api.com/v1" ++ endpoint;
              init := {| Fetch.method := method;
                         Fetch.body := if truthy body then JSON.stringify body
                                       else None |} |} with
   | Fulfilled r => json r
   | Rejected e => Rejected e
   | Pending => Pending
   end,
   (log ++ [{| url := "https://api.com/v1" ++ endpoint;
               init := {| Fetch.method := method;
                          Fetch.body := if truthy body then JSON.stringify body
                                        else None |} |}])%list).
Proof.
  unfold request, bind, fetch, settle.
  match goal with |- context [t ?c] => destruct (t c) end; reflexivity.
Qed.

Lemma request_calls :
  calls (request D method endpoint body) t =
  [{| url := "https://api.com/v1" ++ endpoint;
      init := {| Fetch.method := method;
                 Fetch.body := if truthy body then JSON.stringify body
                               else None |} |}].
Proof. unfold calls, run. now rewrite request_steps. Qed.

Lemma request_result :
  result (request D method endpoint body) t =
  match t {| url := "https://api.com/v1" ++ endpoint;
             init := {| Fetch.method := method;
                        Fetch.body := if truthy body then JSON.stringify body
                                      else None |} |} with
  | Fulfilled r => json r
  | Rejected e => Rejected e
  | Pending => Pending
  end.
Proof. unfold result, run. now rewrite request_steps. Qed.


End Request.

(** The calls made depend neither on the transport nor on the type
    argument. *)
Lemma request_calls_transport (D D' : Descriptor) (method : Method)
    (endpoint : string) (body : value) (t t' : Transport) :
  calls (request D' method endpoint body) t' =
  calls (request D method endpoint body) t.
Proof. now rewrite !request_calls. Qed.

(** ** The properties of [request] *)

(** C1. Round trip: against a transport that answers with a body decoding
    to [v], [request] yields [v], for every descriptor, method, endpoint
    and body.  At [getUser 1] against a stub that returns
    [{"name":"Kumar"}] the value yielded is [{ name: "Kumar" }]. *)
Theorem request_round_trip (D : Descriptor) (method : Method)
    (endpoint : string) (body : value) (t : Transport) (v : value) :
  echoes t v ->
  result (request D method endpoint body) t = Fulfilled v.
Proof.
  intros H. rewrite request_result.
  destruct (H {| url := "https://api.com/v1" ++ endpoint;
                 init := {| Fetch.method := method;
                            Fetch.body := if truthy body
                                          then JSON.stringify body
                                          else None |} |})
    as [r [-> Hr]].
  exact Hr.
Qed.

Lemma request_round_trip_witness :
  echoes (echo_stub 200 kumar) kumar /\
  has_type User kumar = true /\
  result (getUser 1) (echo_stub 200 kumar) = Fulfilled kumar /\
  result (request D_get_user GET "/users/1" VUndefined) (echo_stub 200 kumar)
  = Fulfilled kumar.
Proof.
  assert (H : echoes (echo_stub 200 kumar) kumar).
  { intros c. eexists. split; reflexivity. }
  split; [exact H |].
  split; [reflexivity |].
  split;
    exact (request_round_trip D_get_user GET "/users/1" VUndefined
             (echo_stub 200 kumar) kumar H).
Defined.

(** C2, as stated, fails: a call site with a body-capable descriptor may
    use [GET], and the body it passes is handed to the transport. *)
Lemma GET_with_body_counterexample :
  call_site_accepts D_create_user kumar = true /\
  calls (request D_create_user GET "/users" kumar) (echo_stub 200 kumar) =
  [{| url := "https://api.com/v1/users";
      init := {| Fetch.method := GET; Fetch.body := Some kumar_json |} |}] /\
  ~ no_body (calls (request D_create_user GET "/users" kumar)
               (echo_stub 200 kumar)).
Proof.
  split; [reflexivity |].
  split; [reflexivity |].
  intros H. inversion H as [| c cs Hc Hcs]. discriminate Hc.
Qed.

(** C2, amended.  A [GET] call to which no body argument is supplied hands
    no body to the transport; and where the descriptor's [BodyType] is
    absent, a call site supplies none. *)
Theorem GET_without_body_argument (D : Descriptor) (endpoint : string)
    (body : value) (t : Transport) :
  body = VUndefined \/
  (BodyType D = TUndefined /\ call_site_accepts D body = true) ->
  calls (request D GET endpoint body) t =
  [{| url := "https://api.com/v1" ++ endpoint;
      init := {| Fetch.method := GET; Fetch.body := None |} |}] /\
  no_body (calls (request D GET endpoint body) t).
Proof.
  intros H.
  assert (Hb : body = VUndefined).
  { destruct H as [H | [HD H]]; [exact H |].
    now apply (accepted_body_of_absent_type D). }
  subst body. rewrite !request_calls. simpl.
  split; [reflexivity |].
  constructor; [reflexivity | constructor].
Qed.

Lemma GET_without_body_argument_witness :
  (VUndefined = VUndefined \/
   (BodyType D_get_user = TUndefined /\
    call_site_accepts D_get_user VUndefined = true)) /\
  calls (getUser 1) (echo_stub 200 kumar) =
  [{| url := "https://api.com/v1/users/1";
      init := {| Fetch.method := GET; Fetch.body := None |} |}].
Proof.
  split.
  - right. split; reflexivity.
  - exact (proj1 (GET_without_body_argument D_get_user "/users/1" VUndefined
                    (echo_stub 200 kumar)
                    (or_intror (conj eq_refl eq_refl)))).
Defined.

(** The method plays no part in what body is handed to the transport. *)
Lemma body_independent_of_method (D D' : Descriptor) (m m' : Method)
    (endpoint : string) (body : value) (t t' : Transport) :
  map (fun c => Fetch.body (init c)) (calls (request D m endpoint body) t) =
  map (fun c => Fetch.body (init c)) (calls (request D' m' endpoint body) t').
Proof. now rewrite !request_calls. Qed.

(** C3 at the body [false] of a [POST] whose [BodyType] is [boolean]: the
    descriptor meets the constraint, the body has the declared type and
    [JSON.stringify] has the text ["false"] for it, yet the call handed to
    the transport has no body. *)
Lemma POST_false_body_is_dropped :
  descriptor_ok D_flag = true /\
  has_type (BodyType D_flag) (VBool false) = true /\
  JSON.stringify (VBool false) = Some "false" /\
  calls (request D_flag POST "/flags" (VBool false)) (echo_stub 200 kumar) =
  [{| url := "https://api.com/v1/flags";
      init := {| Fetch.method := POST; Fetch.body := None |} |}].
Proof. repeat split; reflexivity. Qed.

(** A [POST] call with a truthy body hands to the transport the JSON text
    of that body; so it does at [createUser { name: "Kumar" }]. *)
Lemma POST_truthy_body_is_serialized (D : Descriptor) (endpoint : string)
    (body : value) (t : Transport) :
  truthy body = true ->
  JSON.stringify body <> None /\
  calls (request D POST endpoint body) t =
  [{| url := "https://api.com/v1" ++ endpoint;
      init := {| Fetch.method := POST;
                 Fetch.body := JSON.stringify body |} |}].
Proof.
  intros H. split.
  - apply stringify_defined, truthy_defined, H.
  - rewrite request_calls. now rewrite H.
Qed.

Lemma createUser_kumar_call :
  calls (createUser kumar) (echo_stub 200 kumar) =
  [{| url := "https://api.com/v1/users";
      init := {| Fetch.method := POST; Fetch.body := Some kumar_json |} |}].
Proof.
  exact (proj2 (POST_truthy_body_is_serialized D_create_user "/users" kumar
                  (echo_stub 200 kumar) eq_refl)).
Qed.




(** C5 at the body [0] of a call site whose [BodyType] is [number]: the
    call type-checks and [JSON.stringify] has the text ["0"] for the body,
    yet the call handed to the transport has no body. *)
Lemma falsy_body_is_dropped :
  call_site_accepts D_counter (VNum 0) = true /\
  JSON.stringify (VNum 0) = Some "0" /\
  calls (request D_counter POST "/counter" (VNum 0)) (echo_stub 200 kumar) =
  [{| url := "https://api.com/v1/counter";
      init := {| Fetch.method := POST; Fetch.body := None |} |}].
Proof. repeat split; reflexivity. Qed.

(** The body handed to the transport is the JSON text of the argument
    exactly when the argument is truthy. *)
Lemma body_serialized_iff_truthy (D : Descriptor) (method : Method)
    (endpoint : string) (body : value) (t : Transport) :
  map (fun c => Fetch.body (init c))
    (calls (request D method endpoint body) t) = [JSON.stringify body]
  <-> truthy body = true \/ body = VUndefined.
Proof.
  rewrite request_calls. simpl. split.
  - destruct body; simpl; intros H; try discriminate H; auto.
    + destruct b; simpl in *; [auto | discriminate H].
    + destruct (n =? 0)%Z; simpl in *; [discriminate H | auto].
    + destruct (s =? ""); simpl in *; [discriminate H | auto].
  - intros [H | ->]; [now rewrite H | reflexivity].
Qed.

(** C6. The URL handed to the transport is ["https://api.com/v1"] followed
    by the endpoint, whatever the endpoint is: taking the eighteen
    characters of the base off the URL leaves the endpoint. *)
Theorem request_url_is_base_then_endpoint (D : Descriptor) (method : Method)
    (endpoint : string) (body : value) (t : Transport) :
  map url (calls (request D method endpoint body) t) =
  ["https://api.com/v1" ++ endpoint] /\
  String.length ("https://api.com/v1" ++ endpoint) =
  18 + String.length endpoint /\
  substring 18 (String.length endpoint) ("https://api.com/v1" ++ endpoint) =
  endpoint.
Proof.
  rewrite request_calls. split; [reflexivity |]. split.
  - now rewrite length_append.
  - exact (substring_append "https://api.com/v1" endpoint).
Qed.

(** C7. When the transport fails, [request] fails with the transport's
    failure; it yields no value, and it has called the transport once. *)
Theorem transport_failure_propagates (D : Descriptor) (method : Method)
    (endpoint : string) (body : value) (t : Transport) (err : exn) :
  (forall c, In c (calls (request D method endpoint body) t) ->
             t c = Rejected err) ->
  result (request D method endpoint body) t = Rejected err /\
  (forall v, result (request D method endpoint body) t <> Fulfilled v) /\
  List.length (calls (request D method endpoint body) t) = 1.
Proof.
  intros H.
  assert (R : result (request D method endpoint body) t = Rejected err).
  { rewrite request_result. rewrite H; [reflexivity |].
    rewrite request_calls. now left. }
  split; [exact R |]. split.
  - intros v. rewrite R. discriminate.
  - now rewrite request_calls.
Qed.

Lemma transport_failure_propagates_witness :
  (forall c, In c (calls (createUser kumar)
                     (failing_stub (TypeError "Failed to fetch"))) ->
             failing_stub (TypeError "Failed to fetch") c =
             Rejected (TypeError "Failed to fetch")) /\
  result (createUser kumar) (failing_stub (TypeError "Failed to fetch")) =
  Rejected (TypeError "Failed to fetch") /\
  List.length (calls (createUser kumar)
                 (failing_stub (TypeError "Failed to fetch"))) = 1.
Proof.
  assert (H : forall c,
             In c (calls (createUser kumar)
                     (failing_stub (TypeError "Failed to fetch"))) ->
             failing_stub (TypeError "Failed to fetch") c =
             Rejected (TypeError "Failed to fetch")).
  { intros c _. reflexivity. }
  split; [exact H |].
  destruct (transport_failure_propagates D_create_user POST "/users" kumar
              (failing_stub (TypeError "Failed to fetch"))
              (TypeError "Failed to fetch") H) as [R [_ N]].
  split; [exact R | exact N].
Defined.

(** C8. When the body of the response does not decode, [request] fails
    with the decoding failure; it yields no value, be it [null] or any
    other. *)
Theorem decoding_failure_propagates (D : Descriptor) (method : Method)
    (endpoint : string) (body : value) (t : Transport) (r : Response)
    (err : exn) :
  (forall c, In c (calls (request D method endpoint body) t) ->
             t c = Fulfilled r) ->
  json r = Rejected err ->
  result (request D method endpoint body) t = Rejected err /\
  (forall v, result (request D method endpoint body) t <> Fulfilled v).
Proof.
  intros H Hr.
  assert (R : result (request D method endpoint body) t = Rejected err).
  { rewrite request_result. rewrite H; [exact Hr |].
    rewrite request_calls. now left. }
  split; [exact R |].
  intros v. rewrite R. discriminate.
Qed.

Lemma decoding_failure_propagates_witness :
  (forall c, In c (calls (getUser 1)
                     (malformed_stub (SyntaxError "Unexpected token <"))) ->
             malformed_stub (SyntaxError "Unexpected token <") c =
             Fulfilled {| status := 200;
                          json := Rejected (SyntaxError "Unexpected token <") |}) /\
  result (getUser 1) (malformed_stub (SyntaxError "Unexpected token <")) =
  Rejected (SyntaxError "Unexpected token <") /\
  result (getUser 1) (malformed_stub (SyntaxError "Unexpected token <")) <>
  Fulfilled VNull.
Proof.
  assert (H : forall c,
             In c (calls (getUser 1)
                     (malformed_stub (SyntaxError "Unexpected token <"))) ->
             malformed_stub (SyntaxError "Unexpected token <") c =
             Fulfilled {| status := 200;
                          json := Rejected (SyntaxError "Unexpected token <") |}).
  { intros c _. reflexivity. }
  split; [exact H |].
  destruct (decoding_failure_propagates D_get_user GET "/users/1" VUndefined
              (malformed_stub (SyntaxError "Unexpected token <"))
              {| status := 200;
                 json := Rejected (SyntaxError "Unexpected token <") |}
              (SyntaxError "Unexpected token <") H eq_refl) as [R N].
  split; [exact R | exact (N VNull)].
Defined.

(** C9. When the body of the response decodes to [v], [request] yields [v]
    as it is, whatever the declared [ResponseType] and whatever the shape of
    [v]; and it yields the same against a transport whose responses differ
    in their status code only. *)
Theorem decoded_value_returned_unchecked (D : Descriptor) (method : Method)
    (endpoint : string) (body : value) (t : Transport) (r : Response)
    (v : value) (st : Z) :
  (forall c, In c (calls (request D method endpoint body) t) ->
             t c = Fulfilled r) ->
  json r = Fulfilled v ->
  result (request D method endpoint body) t = Fulfilled v /\
  result (request D method endpoint body) (with_status st t) = Fulfilled v.
Proof.
  intros H Hr.
  assert (Hc : t {| url := "https://api.com/v1" ++ endpoint;
                    init := {| Fetch.method := method;
                               Fetch.body := if truthy body
                                             then JSON.stringify body
                                             else None |} |} = Fulfilled r).
  { apply H. rewrite request_calls. now left. }
  rewrite !request_result. unfold with_status. rewrite Hc.
  split; exact Hr.
Qed.

Lemma decoded_value_returned_unchecked_witness :
  (forall c, In c (calls (getUser 1)
                     (echo_stub 200 (VObj [("error", VStr "gone")]))) ->
             echo_stub 200 (VObj [("error", VStr "gone")]) c =
             Fulfilled {| status := 200;
                          json := Fulfilled (VObj [("error", VStr "gone")]) |}) /\
  has_type (ResponseType D_get_user) (VObj [("error", VStr "gone")]) = false /\
  result (getUser 1) (echo_stub 200 (VObj [("error", VStr "gone")])) =
  Fulfilled (VObj [("error", VStr "gone")]) /\
  result (getUser 1) (echo_stub 500 (VObj [("error", VStr "gone")])) =
  Fulfilled (VObj [("error", VStr "gone")]).
Proof.
  assert (H : forall c,
             In c (calls (getUser 1)
                     (echo_stub 200 (VObj [("error", VStr "gone")]))) ->
             echo_stub 200 (VObj [("error", VStr "gone")]) c =
             Fulfilled {| status := 200;
                          json := Fulfilled (VObj [("error", VStr "gone")]) |}).
  { intros c _. reflexivity. }
  split; [exact H |].
  split; [reflexivity |].
  exact (decoded_value_returned_unchecked D_get_user GET "/users/1"
           VUndefined (echo_stub 200 (VObj [("error", VStr "gone")]))
           {| status := 200;
              json := Fulfilled (VObj [("error", VStr "gone")]) |}
           (VObj [("error", VStr "gone")]) 500 H eq_refl).
Defined.

(** C10. Two invocations with the same method, endpoint and body, against
    transports that answer alike the calls made, settle alike and make the
    same calls, whatever the two descriptors are. *)
Theorem request_deterministic (D1 D2 : Descriptor) (method : Method)
    (endpoint : string) (body : value) (t1 t2 : Transport) :
  (forall c, In c (calls (request D1 method endpoint body) t1) ->
             t1 c = t2 c) ->
  run (request D1 method endpoint body) t1 =
  run (request D2 method endpoint body) t2.
Proof.
  intros H. unfold run. rewrite !request_steps.
  rewrite H; [reflexivity |].
  rewrite request_calls. now left.
Qed.

Lemma request_deterministic_witness :
  (forall c, In c (calls (request D_get_user POST "/users" kumar)
                     (echo_stub 200 kumar)) ->
             echo_stub 200 kumar c = with_status 200 (echo_stub 404 kumar) c) /\
  run (request D_get_user POST "/users" kumar) (echo_stub 200 kumar) =
  run (request D_create_user POST "/users" kumar)
    (with_status 200 (echo_stub 404 kumar)).
Proof.
  assert (H : forall c,
             In c (calls (request D_get_user POST "/users" kumar)
                     (echo_stub 200 kumar)) ->
             echo_stub 200 kumar c = with_status 200 (echo_stub 404 kumar) c).
  { intros c _. reflexivity. }
  split; [exact H |].
  exact (request_deterministic D_get_user D_create_user POST "/users" kumar
           (echo_stub 200 kumar) (with_status 200 (echo_stub 404 kumar)) H).
Defined.

(** ** Decimal digits of a user id *)

Lemma occurs_append (c : ascii) (s1 s2 : string) :
  occurs c (s1 ++ s2) = occurs c s1 || occurs c s2.
Proof.
  induction s1 as [| a s1 IH]; simpl.
  - reflexivity.
  - now rewrite IH, orb_assoc.
Qed.

Lemma digits_no_slash (d : Decimal.uint) :
  occurs "/" (NilEmpty.string_of_uint d) = false.
Proof. induction d; simpl; auto. Qed.

Lemma Number_toString_no_slash (n : Z) :
  occurs "/" (Number_toString n) = false.
Proof.
  unfold Number_toString, NilZero.string_of_int, NilZero.string_of_uint.
  destruct (Z.to_int n) as [d | d]; destruct d; simpl;
    auto using digits_no_slash.
Qed.

Lemma Number_toString_inj (a b : Z) :
  Number_toString a = Number_toString b -> a = b.
Proof.
  assert (N : forall z, Z.to_int z <> Decimal.Pos Decimal.Nil /\
                        Z.to_int z <> Decimal.Neg Decimal.Nil).
  { intros [| p | p]; simpl; split; try discriminate;
      intros [= H]; now apply DecimalPos.Unsigned.to_uint_nonnil in H. }
  unfold Number_toString. intros H.
  apply DecimalZ.to_int_inj.
  assert (E : Some (Z.to_int a) = Some (Z.to_int b)).
  { rewrite <- (NilZero.isi (Z.to_int a)), <- (NilZero.isi (Z.to_int b));
      try apply N.
    now rewrite H. }
  now injection E.
Qed.

(** ** What the functions of example-04 do *)

Lemma request1_steps (Data : ty) (endpoint : string) (t : Fetch1.Transport)
    (log : list string) :
  Example04.request Data endpoint t log =
  (match t ("https://api.com/v1" ++ endpoint) with
   | Fulfilled r => json r
   | Rejected e => Rejected e
   | Pending => Pending
   end,
   (log ++ [("https://api.com/v1" ++ endpoint)%string])%list).
Proof.
  unfold Example04.request, Fetch1.bind, Fetch1.fetch, Fetch1.settle.
  destruct (t ("https://api.com/v1" ++ endpoint)); reflexivity.
Qed.

Lemma request1_result (Data : ty) (endpoint : string) (t : Fetch1.Transport) :
  Fetch1.result (Example04.request Data endpoint) t =
  match t ("https://api.com/v1" ++ endpoint) with
  | Fulfilled r => json r
  | Rejected e => Rejected e
  | Pending => Pending
  end.
Proof. unfold Fetch1.result, Fetch1.run. now rewrite request1_steps. Qed.

Lemma request1_calls (Data : ty) (endpoint : string) (t : Fetch1.Transport) :
  Fetch1.calls (Example04.request Data endpoint) t =
  ["https://api.com/v1" ++ endpoint].
Proof. unfold Fetch1.calls, Fetch1.run. now rewrite request1_steps. Qed.

(** [getUserName] is [request] followed by the access to [name]. *)
Lemma getUserName_result (userId : Z) (t : Fetch1.Transport) :
  Fetch1.result (Example04.getUserName userId) t =
  match Fetch1.result
          (Example04.request User ("/users/" ++ Number_toString userId)) t with
  | Fulfilled user => Example04.member user "name"
  | Rejected e => Rejected e
  | Pending => Pending
  end.
Proof.
  unfold Fetch1.result, Fetch1.run, Example04.getUserName, Fetch1.bind,
    Fetch1.settle.
  destruct (Example04.request User ("/users/" ++ Number_toString userId) t [])
    as [[user | e |] log]; reflexivity.
Qed.

Lemma getUserName_calls (userId : Z) (t : Fetch1.Transport) :
  Fetch1.calls (Example04.getUserName userId) t =
  ["https://api.com/v1" ++ "/users/" ++ Number_toString userId].
Proof.
  unfold Fetch1.calls, Fetch1.run, Example04.getUserName, Fetch1.bind,
    Fetch1.settle.
  rewrite request1_steps.
  destruct (t ("https://api.com/v1" ++ "/users/" ++ Number_toString userId))
    as [r | e |]; [destruct (json r) |..]; reflexivity.
Qed.

(** What [getUserName] yields once the response has decoded to [v]. *)
Lemma getUserName_decoded (userId : Z) (t : Fetch1.Transport) (r : Response)
    (v : value) :
  (forall u, In u (Fetch1.calls (Example04.getUserName userId) t) ->
             t u = Fulfilled r) ->
  json r = Fulfilled v ->
  Fetch1.result (Example04.getUserName userId) t = Example04.member v "name".
Proof.
  intros H Hr. rewrite getUserName_result, request1_result.
  rewrite H; [now rewrite Hr |].
  rewrite getUserName_calls. now left.
Qed.

Lemma has_type_User (v : value) :
  has_type User v = true <-> exists s, get_property v "name" = Some (VStr s).
Proof.
  unfold User. simpl. split.
  - intros H. apply andb_prop in H as [_ H]. apply andb_prop in H as [H _].
    destruct (get_property v "name") as [w |]; [| discriminate H].
    destruct w; try discriminate H. now eexists.
  - intros [s H]. rewrite H.
    destruct v; simpl in H; try discriminate H. reflexivity.
Qed.

Lemma member_string (v : value) (k s : string) :
  Example04.member v k = Fulfilled (VStr s) <->
  get_property v k = Some (VStr s).
Proof.
  destruct v; simpl; split; intros H; try discriminate H; try reflexivity.
  - destruct (lookup k props) as [w |]; inversion H. reflexivity.
  - now rewrite H.
Qed.

(** ** Properties of the functions of example-04 *)

(** X1. Once the response has decoded to [v], [getUserName] yields a
    string exactly when [v] has the type [User], and the string is then the
    own property [name] of [v]. *)
Theorem getUserName_string_iff_User (userId : Z) (t : Fetch1.Transport)
    (r : Response) (v : value) :
  (forall u, In u (Fetch1.calls (Example04.getUserName userId) t) ->
             t u = Fulfilled r) ->
  json r = Fulfilled v ->
  ((exists s, Fetch1.result (Example04.getUserName userId) t =
              Fulfilled (VStr s)) <->
   has_type User v = true) /\
  (forall s, Fetch1.result (Example04.getUserName userId) t =
             Fulfilled (VStr s) <->
             get_property v "name" = Some (VStr s)).
Proof.
  intros H Hr. rewrite (getUserName_decoded userId t r v H Hr).
  split.
  - rewrite has_type_User.
    split; intros [s Hs]; exists s; now apply member_string.
  - intros s. apply member_string.
Qed.

Lemma getUserName_string_iff_User_witness :
  (forall u, In u (Fetch1.calls (Example04.getUserName 7)
                     (url_only (echo_stub 200 kumar))) ->
             url_only (echo_stub 200 kumar) u =
             Fulfilled {| status := 200; json := Fulfilled kumar |}) /\
  has_type User kumar = true /\
  Fetch1.result (Example04.getUserName 7) (url_only (echo_stub 200 kumar)) =
  Fulfilled (VStr "Kumar").
Proof.
  assert (H : forall u,
             In u (Fetch1.calls (Example04.getUserName 7)
                     (url_only (echo_stub 200 kumar))) ->
             url_only (echo_stub 200 kumar) u =
             Fulfilled {| status := 200; json := Fulfilled kumar |}).
  { intros u _. reflexivity. }
  split; [exact H |].
  split; [reflexivity |].
  apply (proj2 (getUserName_string_iff_User 7 (url_only (echo_stub 200 kumar))
                  {| status := 200; json := Fulfilled kumar |} kumar
                  H eq_refl) "Kumar").
  reflexivity.
Defined.

(** X2. Once the response has decoded to a value that is neither [null]
    nor [undefined] and has no property [name], [getUserName] yields
    [undefined]: the call succeeds, with no string. *)
Theorem getUserName_missing_name (userId : Z) (t : Fetch1.Transport)
    (r : Response) (v : value) :
  (forall u, In u (Fetch1.calls (Example04.getUserName userId) t) ->
             t u = Fulfilled r) ->
  json r = Fulfilled v ->
  non_nullish v = true ->
  get_property v "name" = None ->
  Fetch1.result (Example04.getUserName userId) t = Fulfilled VUndefined.
Proof.
  intros H Hr Hn Hp. rewrite (getUserName_decoded userId t r v H Hr).
  destruct v; simpl in *; try discriminate Hn; try reflexivity.
  now rewrite Hp.
Qed.

Lemma getUserName_missing_name_witness :
  (forall u, In u (Fetch1.calls (Example04.getUserName 7)
                     (url_only (echo_stub 200
                                  (VObj [("firstName", VStr "Kumar")])))) ->
             url_only (echo_stub 200 (VObj [("firstName", VStr "Kumar")])) u =
             Fulfilled {| status := 200;
                          json := Fulfilled
                                    (VObj [("firstName", VStr "Kumar")]) |}) /\
  Fetch1.result (Example04.getUserName 7)
    (url_only (echo_stub 200 (VObj [("firstName", VStr "Kumar")]))) =
  Fulfilled VUndefined.
Proof.
  assert (H : forall u,
             In u (Fetch1.calls (Example04.getUserName 7)
                     (url_only (echo_stub 200
                                  (VObj [("firstName", VStr "Kumar")])))) ->
             url_only (echo_stub 200 (VObj [("firstName", VStr "Kumar")])) u =
             Fulfilled {| status := 200;
                          json := Fulfilled
                                    (VObj [("firstName", VStr "Kumar")]) |}).
  { intros u _. reflexivity. }
  split; [exact H |].
  exact (getUserName_missing_name 7
           (url_only (echo_stub 200 (VObj [("firstName", VStr "Kumar")])))
           {| status := 200;
              json := Fulfilled (VObj [("firstName", VStr "Kumar")]) |}
           (VObj [("firstName", VStr "Kumar")]) H eq_refl eq_refl eq_refl).
Defined.

(** X3. [getUserName] fails in three cases and no other: [request] has
    failed, or [request] has yielded [null], or it has yielded
    [undefined]. *)
Theorem getUserName_rejects_iff (userId : Z) (t : Fetch1.Transport) :
  (exists e, Fetch1.result (Example04.getUserName userId) t = Rejected e) <->
  (exists e, Fetch1.result
               (Example04.request User ("/users/" ++ Number_toString userId)) t
             = Rejected e) \/
  Fetch1.result
    (Example04.request User ("/users/" ++ Number_toString userId)) t
  = Fulfilled VNull \/
  Fetch1.result
    (Example04.request User ("/users/" ++ Number_toString userId)) t
  = Fulfilled VUndefined.
Proof.
  rewrite getUserName_result.
  destruct (Fetch1.result
              (Example04.request User ("/users/" ++ Number_toString userId)) t)
    as [v | e |].
  - destruct v; simpl; split;
      try (intros [e H]; discriminate H);
      try (intros [[e H] | [H | H]]; discriminate H);
      try (intros _; eexists; reflexivity);
      auto.
  - split; [intros _; left | intros _]; now exists e.
  - split; [intros [e H] | intros [[e H] | [H | H]]]; discriminate H.
Qed.

(** X4. For user ids that are safe integers, the URL that [getUserRoles]
    fetches for a user is the URL that [getUserName] fetches for no
    user. *)
Theorem roles_url_is_no_user_url (a b : Z) (t t' : Fetch1.Transport) :
  isSafeInteger a = true ->
  isSafeInteger b = true ->
  Fetch1.calls (Example04.getUserRoles a) t =
  ["https://api.com/v1" ++ "/users/" ++ Number_toString a ++ "/roles"] /\
  Fetch1.calls (Example04.getUserName b) t' =
  ["https://api.com/v1" ++ "/users/" ++ Number_toString b] /\
  Fetch1.calls (Example04.getUserRoles a) t <>
  Fetch1.calls (Example04.getUserName b) t'.
Proof.
  intros _ _.
  unfold Example04.getUserRoles.
  rewrite request1_calls, getUserName_calls.
  split; [reflexivity |]. split; [reflexivity |].
  intros [= H].
  pose proof (Number_toString_no_slash b) as N.
  rewrite <- H, occurs_append in N.
  rewrite orb_false_iff in N. destruct N as [_ N]. discriminate N.
Qed.

Lemma roles_url_is_no_user_url_witness :
  isSafeInteger 12 = true /\
  isSafeInteger (-3) = true /\
  Fetch1.calls (Example04.getUserRoles 12) (url_only (echo_stub 200 kumar)) =
  ["https://api.com/v1/users/12/roles"] /\
  Fetch1.calls (Example04.getUserName (-3)) (url_only (echo_stub 200 kumar)) =
  ["https://api.com/v1/users/-3"].
Proof.
  split; [reflexivity |]. split; [reflexivity |].
  destruct (roles_url_is_no_user_url 12 (-3)
              (url_only (echo_stub 200 kumar))
              (url_only (echo_stub 200 kumar)) eq_refl eq_refl)
    as [R [U _]].
  split; [exact R | exact U].
Defined.

(** ** Properties of the functions of example-05 *)

(** X5. For user ids that are safe integers, [getUser] makes the same call
    for two ids only when the ids are equal: the URL tells the users
    apart. *)
Theorem getUser_call_tells_user (a b : Z) (t t' : Transport) :
  isSafeInteger a = true ->
  isSafeInteger b = true ->
  (calls (getUser a) t = calls (getUser b) t' <-> a = b).
Proof.
  intros _ _.
  unfold getUser. rewrite !request_calls. split.
  - intros [= H]. now apply Number_toString_inj.
  - now intros ->.
Qed.

Lemma getUser_call_tells_user_witness :
  isSafeInteger 1 = true /\
  isSafeInteger 10 = true /\
  calls (getUser 1) (echo_stub 200 kumar) <>
  calls (getUser 10) (echo_stub 200 kumar).
Proof.
  split; [reflexivity |]. split; [reflexivity |].
  intros E.
  pose proof (proj1 (getUser_call_tells_user 1 10 (echo_stub 200 kumar)
                       (echo_stub 200 kumar) eq_refl eq_refl) E) as H.
  discriminate H.
Defined.

(** X6. With a falsy body, a [GET] of example-05's [request] is the
    [request] of example-04: the same URL is fetched and the two settle
    alike, a call with a URL alone being a [GET] without a body. *)
Theorem request_GET_is_example04_request (D : Descriptor) (Data : ty)
    (endpoint : string) (body : value) (t : Transport) :
  truthy body = false ->
  result (request D GET endpoint body) t =
  Fetch1.result (Example04.request Data endpoint) (url_only t) /\
  map url (calls (request D GET endpoint body) t) =
  Fetch1.calls (Example04.request Data endpoint) (url_only t).
Proof.
  intros H.
  rewrite request_result, request_calls, request1_result, request1_calls.
  rewrite H. split; reflexivity.
Qed.

Lemma request_GET_is_example04_request_witness :
  truthy VUndefined = false /\
  result (request D_get_user GET "/users/1" VUndefined) (echo_stub 200 kumar) =
  Fetch1.result (Example04.request User "/users/1")
    (url_only (echo_stub 200 kumar)).
Proof.
  split; [reflexivity |].
  exact (proj1 (request_GET_is_example04_request D_get_user User "/users/1"
                  VUndefined (echo_stub 200 kumar) eq_refl)).
Defined.

(** X7. [getUserName] of example-04 is [getUser] of example-05 followed by
    the access to [name]: it fails as [getUser] does, and where [getUser]
    yields a user it settles as the access does. *)
Theorem getUserName_is_getUser_then_name (userId : Z) (t : Transport) :
  Fetch1.result (Example04.getUserName userId) (url_only t) =
  match result (getUser userId) t with
  | Fulfilled user => Example04.member user "name"
  | Rejected e => Rejected e
  | Pending => Pending
  end.
Proof.
  rewrite getUserName_result, request1_result.
  unfold getUser. rewrite request_result. reflexivity.
Qed.

(** X8. For every argument of the type [User], [createUser] makes one
    [POST] of [/users] whose body is the JSON text of the argument; it
    never posts without a body. *)
Theorem createUser_posts_the_user (user : value) (t : Transport) :
  has_type User user = true ->
  JSON.stringify user <> None /\
  calls (createUser user) t =
  [{| url := "https://api.com/v1/users";
      init := {| Fetch.method := POST;
                 Fetch.body := JSON.stringify user |} |}] /\
  ~ no_body (calls (createUser user) t).
Proof.
  intros H. apply has_type_User in H as [s H].
  destruct user; simpl in H; try discriminate H.
  unfold createUser. rewrite request_calls.
  split; [discriminate |]. split; [reflexivity |].
  intros N. inversion N as [| c cs Hc Hcs]. discriminate Hc.
Qed.

Lemma createUser_posts_the_user_witness :
  has_type User (VObj [("name", VStr "Ada"); ("admin", VBool true)]) = true /\
  calls (createUser (VObj [("name", VStr "Ada"); ("admin", VBool true)]))
    (echo_stub 200 kumar) =
  [{| url := "https://api.com/v1/users";
      init := {| Fetch.method := POST;
                 Fetch.body :=
                   Some ("{" ++ JSON.dquote ++ "name" ++ JSON.dquote ++ ":" ++
                         JSON.dquote ++ "Ada" ++ JSON.dquote ++ "," ++
                         JSON.dquote ++ "admin" ++ JSON.dquote ++ ":true}")
              |} |}].
Proof.
  split; [reflexivity |].
  exact (proj1 (proj2 (createUser_posts_the_user
                         (VObj [("name", VStr "Ada"); ("admin", VBool true)])
                         (echo_stub 200 kumar) eq_refl))).
Defined.

(** X9. [request] hands no body to the transport exactly when its body
    argument is falsy: [undefined], [null], [false], [0] or the empty
    string. *)
Theorem request_no_body_iff_falsy (D : Descriptor) (method : Method)
    (endpoint : string) (body : value) (t : Transport) :
  no_body (calls (request D method endpoint body) t) <->
  truthy body = false.
Proof.
  rewrite request_calls. split.
  - intros N. inversion N as [| c cs Hc Hcs]. simpl in Hc.
    destruct (truthy body) eqn:E; [| reflexivity].
    exfalso. revert Hc.
    apply stringify_defined, truthy_defined, E.
  - intros E. constructor; [| constructor]. simpl. now rewrite E.
Qed.

(** ** The default export of example-05 *)

Lemma await_request (D : Descriptor) (method : Method) (endpoint : string)
    (body : value) (t : Transport) (w : Console.World) :
  Console.await (request D method endpoint body) t w =
  (result (request D method endpoint body) t,
   {| Console.fetched :=
        (Console.fetched w ++ calls (request D method endpoint body) t)%list;
      Console.logged := Console.logged w |}).
Proof.
  unfold Console.await. rewrite request_steps, request_result, request_calls.
  reflexivity.
Qed.

(** X10. When [getUser(1)] does not yield a user, the default export makes
    the [GET] call and no other, writes nothing to the console, and does not
    complete: the [POST] of [createUser] is never attempted. *)
Theorem default_export_stops_at_failed_get (t : Transport) :
  (forall u, result (getUser 1) t <> Fulfilled u) ->
  snd (Console.run Example05Main.default_export t) =
  {| Console.fetched :=
       [{| url := "https://api.com/v1/users/1";
           init := {| Fetch.method := GET; Fetch.body := None |} |}];
     Console.logged := [] |} /\
  fst (Console.run Example05Main.default_export t) <> Fulfilled tt.
Proof.
  intros H.
  unfold Console.run, Example05Main.default_export, Console.bind.
  unfold getUser in *. rewrite await_request, request_calls.
  destruct (result (request {| BodyType := TUndefined; ResponseType := User |}
                      GET ("/users/" ++ Number_toString 1) VUndefined) t)
    as [u | e |] eqn:E.
  - now destruct (H u).
  - split; [reflexivity | discriminate].
  - split; [reflexivity | discriminate].
Qed.

Lemma default_export_stops_at_failed_get_witness :
  (forall u, result (getUser 1) (failing_stub (TypeError "Failed to fetch"))
             <> Fulfilled u) /\
  Console.run Example05Main.default_export
    (failing_stub (TypeError "Failed to fetch")) =
  (Rejected (TypeError "Failed to fetch"),
   {| Console.fetched :=
        [{| url := "https://api.com/v1/users/1";
            init := {| Fetch.method := GET; Fetch.body := None |} |}];
      Console.logged := [] |}).
Proof.
  assert (H : forall u,
             result (getUser 1) (failing_stub (TypeError "Failed to fetch"))
             <> Fulfilled u).
  { intros u. discriminate. }
  split; [exact H |].
  pose proof (proj1 (default_export_stops_at_failed_get
                       (failing_stub (TypeError "Failed to fetch")) H)) as W.
  rewrite (surjective_pairing
             (Console.run Example05Main.default_export
                (failing_stub (TypeError "Failed to fetch")))).
  rewrite W. reflexivity.
Defined.


